(** * BioStudies MCP server: the request executor and the three tools

    A shallow embedding of [server.py].  Python [str] values are Rocq
    strings holding the UTF-8 bytes of the text (the separators the code
    looks for, [&] and [=], and the prefix [facet.] are ASCII, and an
    ASCII byte never occurs inside a multi-byte UTF-8 sequence, so
    splitting bytes and splitting code points agree).  A Python [dict]
    with string keys is a [gmap string string]; no property below depends
    on insertion order.  The network is an oracle inside the world state,
    and every request that is issued is appended to a log. *)

From Stdlib Require Import ZArith Ascii String List DecimalString.
From stdpp Require Import base gmap strings list fin_maps.

Local Open Scope Z_scope.

(** ** Python results: a value, or an exception with its [str(e)]

    The exceptions are those a call raises, [requests] and [json] ones
    among them, all instances of [Exception]; signals of the interpreter
    ([KeyboardInterrupt], [SystemExit]) and its resource limits are not
    part of the model. *)

Inductive PyResult (A : Type) : Type :=
| Returned (a : A)
| Raised (description : string).
Arguments Returned {A} a.
Arguments Raised {A} description.

(** ** String operations of the Python standard library *)

Module PyStr.

(** [c in s] for a one-character [c]. *)
Fixpoint contains (c : ascii) (s : string) : bool :=
  match s with
  | EmptyString => false
  | String x rest => if Ascii.eqb x c then true else contains c rest
  end.

(** [s.split(c)]: the pieces between the occurrences of [c]; always at
    least one piece. *)
Fixpoint split (c : ascii) (s : string) : list string :=
  match s with
  | EmptyString => [EmptyString]
  | String x rest =>
      if Ascii.eqb x c then EmptyString :: split c rest
      else match split c rest with
           | [] => [String x EmptyString]
           | piece :: pieces => String x piece :: pieces
           end
  end.

(** [s.split(c, 1)]: one piece when [c] does not occur, otherwise the
    text before the first [c] and everything after it. *)
Fixpoint split1 (c : ascii) (s : string) : list string :=
  match s with
  | EmptyString => [EmptyString]
  | String x rest =>
      if Ascii.eqb x c then [EmptyString; rest]
      else match split1 c rest with
           | piece :: pieces => String x piece :: pieces
           | [] => [String x EmptyString]
           end
  end.

(** [s.startswith(p)]. *)
Fixpoint startswith (s p : string) {struct p} : bool :=
  match p, s with
  | EmptyString, _ => true
  | String _ _, EmptyString => false
  | String y p', String x s' => if Ascii.eqb x y then startswith s' p' else false
  end.

(** [str(n)] for a Python [int]. *)
Definition of_int (n : Z) : string := NilZero.string_of_int (Z.to_int n).

(** Truth value of a string: false exactly for the empty string. *)
Definition truthy (s : string) : bool :=
  match s with EmptyString => false | String _ _ => true end.

End PyStr.

(** ** Step 1 of [search_studies]: parsing the raw parameter string
    (server.py, lines 92-98) *)

(** The body of [for pair in param_pairs].  Unpacking [key, value = ...]
    raises [ValueError] unless the split gave exactly two pieces. *)
Fixpoint parse_pairs (param_pairs : list string) (param_dict : gmap string string)
  : PyResult (gmap string string) :=
  match param_pairs with
  | [] => Returned param_dict
  | pair_ :: rest =>
      if PyStr.contains "="%char pair_ then
        match PyStr.split1 "="%char pair_ with
        | [key; value] => parse_pairs rest (<[key := value]> param_dict)
        | [] => Raised "not enough values to unpack (expected 2, got 0)"
        | [_] => Raised "not enough values to unpack (expected 2, got 1)"
        | _ => Raised "too many values to unpack (expected 2)"
        end
      else parse_pairs rest param_dict
  end.

Definition parse_params (params : string) : PyResult (gmap string string) :=
  if PyStr.truthy params
  then parse_pairs (PyStr.split "&"%char params) ∅
  else Returned ∅.

(** ** JSON values and [json.dumps(value, indent=...)] *)

#[local] Set Warnings "-register-all".

(** What [response.json()] can return.  An object keeps its members in
    insertion order, as a Python [dict] does.  A [float] is carried by the
    text [float.__repr__] gives for it ([NaN], [Infinity] and [-Infinity]
    for the non-finite ones), which is what the encoder writes. *)
Inductive JSON : Type :=
| JNull
| JBool (b : bool)
| JInt (n : Z)
| JFloat (repr : string)
| JString (s : string)
| JArray (items : list JSON)
| JObject (members : list (string * JSON)).

Module PyJson.

Definition dquote : ascii := "034"%char.
Definition backslash : ascii := "092"%char.
Definition newline : ascii := "010"%char.

Definition chr (c : ascii) : string := String c EmptyString.

(** The code points of a string, read from its UTF-8 bytes.  A byte that
    does not start a complete sequence stands for itself; no Python
    string has such an image. *)
Fixpoint code_points (s : string) : list N :=
  let cont (b : ascii) : N := (N_of_ascii b mod 64)%N in
  match s with
  | EmptyString => []
  | String b0 s1 =>
      let n0 := N_of_ascii b0 in
      if (n0 <? 192)%N then n0 :: code_points s1
      else if (n0 <? 224)%N then
        match s1 with
        | String b1 s2 => ((n0 mod 32) * 64 + cont b1)%N :: code_points s2
        | _ => n0 :: code_points s1
        end
      else if (n0 <? 240)%N then
        match s1 with
        | String b1 (String b2 s3) =>
            (((n0 mod 16) * 64 + cont b1) * 64 + cont b2)%N :: code_points s3
        | _ => n0 :: code_points s1
        end
      else
        match s1 with
        | String b1 (String b2 (String b3 s4)) =>
            ((((n0 mod 8) * 64 + cont b1) * 64 + cont b2) * 64 + cont b3)%N
              :: code_points s4
        | _ => n0 :: code_points s1
        end
  end.

Definition hex_digit (d : N) : ascii :=
  if (d <? 10)%N then ascii_of_N (48 + d) else ascii_of_N (87 + d).

(** ['\\u{0:04x}'.format(n)] for [n < 0x10000]. *)
Definition u_escape (n : N) : string :=
  String backslash (String "u"
    (String (hex_digit (n / 4096 mod 16)) (String (hex_digit (n / 256 mod 16))
    (String (hex_digit (n / 16 mod 16)) (String (hex_digit (n mod 16))
     EmptyString))))).

(** The replacement [encode_basestring_ascii] makes for one code point:
    printable ASCII other than the quote and the backslash is kept. *)
Definition escape_code_point (n : N) : string :=
  if (n =? 34)%N then String backslash (chr dquote)
  else if (n =? 92)%N then String backslash (chr backslash)
  else if (n =? 8)%N then String backslash "b"
  else if (n =? 12)%N then String backslash "f"
  else if (n =? 10)%N then String backslash "n"
  else if (n =? 13)%N then String backslash "r"
  else if (n =? 9)%N then String backslash "t"
  else if ((32 <=? n) && (n <=? 126))%N then chr (ascii_of_N n)
  else if (n <? 65536)%N then u_escape n
  else
    let m := (n - 65536)%N in
    u_escape (N.lor 55296 (N.land (N.shiftr m 10) 1023))
      +:+ u_escape (N.lor 56320 (N.land m 1023)).

(** [encode_basestring_ascii(s)] ([ensure_ascii] is left at its default). *)
Definition encode_basestring_ascii (s : string) : string :=
  String dquote
    (foldr (fun n acc => escape_code_point n +:+ acc) (chr dquote) (code_points s)).

Fixpoint spaces (n : nat) : string :=
  match n with O => EmptyString | S k => String " " (spaces k) end.

(** ['\n' + _indent * _current_indent_level]. *)
Definition newline_indent (indent level : nat) : string :=
  String newline (spaces (indent * level)).

(** [separator.join(chunks)]. *)
Fixpoint join (separator : string) (chunks : list string) : string :=
  match chunks with
  | [] => EmptyString
  | [chunk] => chunk
  | chunk :: rest => chunk +:+ separator +:+ join separator rest
  end.

(** [_iterencode(o, _current_indent_level)] of the encoder with an
    integer [indent]: the item separator is a comma and the key
    separator a colon followed by one space. *)
Fixpoint iterencode (indent level : nat) (o : JSON) : string :=
  match o with
  | JNull => "null"
  | JBool true => "true"
  | JBool false => "false"
  | JInt n => PyStr.of_int n
  | JFloat repr => repr
  | JString s => encode_basestring_ascii s
  | JArray [] => "[]"
  | JArray items =>
      "[" +:+ newline_indent indent (S level)
      +:+ join ("," +:+ newline_indent indent (S level))
            (List.map (iterencode indent (S level)) items)
      +:+ newline_indent indent level +:+ "]"
  | JObject [] => "{}"
  | JObject members =>
      "{" +:+ newline_indent indent (S level)
      +:+ join ("," +:+ newline_indent indent (S level))
            (List.map (fun member =>
                         encode_basestring_ascii (fst member) +:+ ": "
                         +:+ iterencode indent (S level) (snd member))
                      members)
      +:+ newline_indent indent level +:+ "}"
  end.

(** [json.dumps(o, indent=indent)]. *)
Definition dumps (o : JSON) (indent : nat) : string := iterencode indent 0 o.

End PyJson.

(** ** The world: the remote service and the log of requests *)

(** One call [requests.get(url, params=params)]; [params=None] is [None]. *)
Record Request : Type := {
  req_url : string;
  req_params : option (gmap string string)
}.

(** What the code reads of a [requests.Response]: [status_code], [text],
    and the outcome of calling [json()], which parses the body and raises
    when the body is not JSON. *)
Record Response : Type := {
  status_code : Z;
  text : string;
  json : PyResult JSON
}.

(** [network] answers a request with a response, or with the exception
    the transport raises (connection, DNS, timeout, invalid URL, ...);
    [sent] lists the requests issued so far, oldest first. *)
Record World : Type := {
  network : Request -> PyResult Response;
  sent : list Request
}.

(** Computations that read and extend the world and may raise. *)
Definition Py (A : Type) : Type := World -> PyResult A * World.

Definition ret {A} (a : A) : Py A := fun w => (Returned a, w).

Definition raise {A} (description : string) : Py A :=
  fun w => (Raised description, w).

Definition bind {A B} (m : Py A) (k : A -> Py B) : Py B :=
  fun w =>
    match m w with
    | (Returned a, w') => k a w'
    | (Raised e, w') => (Raised e, w')
    end.

(** [try: body / except Exception as e: handler(str(e))]. *)
Definition try_except {A} (body : Py A) (handler : string -> Py A) : Py A :=
  fun w =>
    match body w with
    | (Returned a, w') => (Returned a, w')
    | (Raised e, w') => handler e w'
    end.

(** A pure step that may raise, run inside [Py]. *)
Definition lift {A} (r : PyResult A) : Py A := fun w => (r, w).

Declare Scope py_scope.
Delimit Scope py_scope with py.
Notation "x <- m ;; k" := (bind m (fun x => k))
  (at level 100, m at next level, right associativity) : py_scope.
Local Open Scope py_scope.

(** [requests.get(url, params=params)]: the request goes out, whatever
    comes of it. *)
Definition requests_get (url : string) (params : option (gmap string string))
  : Py Response :=
  fun w =>
    let request := {| req_url := url; req_params := params |} in
    (network w request,
     {| network := network w; sent := sent w ++ [request] |}).

(** ** The request executor (server.py, lines 8-19) *)

Definition _make_api_request (url : string) (params : option (gmap string string))
  : Py string :=
  try_except
    (response <- requests_get url params ;;
     if status_code response =? 200 then
       data <- lift (json response) ;;
       ret (PyJson.dumps data 2)
     else
       ret ("Error: Request failed with status code "
              +:+ PyStr.of_int (status_code response)
              +:+ ". Response: " +:+ text response))
    (fun e => ret ("Error: An exception occurred during request: " +:+ e)).

(** ** The tools *)

(** server.py, lines 21-25. *)
Definition get_study (accession : string) : Py string :=
  let url := "https://www.ebi.ac.uk/biostudies/api/v1/studies/" +:+ accession in
  _make_api_request url None.

(** server.py, lines 119-133. *)
Definition get_study_info (accession : string) : Py string :=
  let url := "https://www.ebi.ac.uk/biostudies/api/v1/studies/" +:+ accession
               +:+ "/info" in
  _make_api_request url None.

(** [base_url] of [search_studies] (line 104): the conditional tests the
    truth value of [collection], so [None] and the empty string both take
    the global endpoint. *)
Definition select_base_url (collection : option string) : string :=
  match collection with
  | Some name =>
      if PyStr.truthy name
      then "https://www.ebi.ac.uk/biostudies/api/v1/" +:+ name +:+ "/search"
      else "https://www.ebi.ac.uk/biostudies/api/v1/search"
  | None => "https://www.ebi.ac.uk/biostudies/api/v1/search"
  end.

(** The dict comprehension of line 107. *)
Definition drop_facets (param_dict : gmap string string) : gmap string string :=
  filter (fun kv => PyStr.startswith (fst kv) "facet." = false) param_dict.

(** [if key not in param_dict: param_dict[key] = value]. *)
Definition set_if_absent (key value : string) (param_dict : gmap string string)
  : gmap string string :=
  match param_dict !! key with
  | Some _ => param_dict
  | None => <[key := value]> param_dict
  end.

(** server.py, lines 27-117. *)
Definition search_studies (params : string) : Py string :=
  param_dict <- lift (parse_params params) ;;
  let collection := param_dict !! "collection" in
  let param_dict := delete "collection" param_dict in
  let base_url := select_base_url collection in
  let param_dict := drop_facets param_dict in
  let param_dict := set_if_absent "page" "1" param_dict in
  let param_dict := set_if_absent "pageSize" "20" param_dict in
  let param_dict := set_if_absent "sortOrder" "descending" param_dict in
  _make_api_request base_url (Some param_dict).

(** * Vocabulary of the statements *)

(** [pair_] is the text [key=value], cut at its first [=]. *)
Definition is_entry (key value pair_ : string) : Prop :=
  pair_ = key +:+ "=" +:+ value /\ PyStr.contains "=" key = false.

Definition binds (key pair_ : string) : Prop :=
  exists value, is_entry key value pair_.

(** The text the executor makes of what the network answered. *)
Definition render (outcome : PyResult Response) : string :=
  match outcome with
  | Raised e => "Error: An exception occurred during request: " +:+ e
  | Returned response =>
      if status_code response =? 200 then
        match json response with
        | Returned data => PyJson.dumps data 2
        | Raised e => "Error: An exception occurred during request: " +:+ e
        end
      else
        "Error: Request failed with status code "
          +:+ PyStr.of_int (status_code response)
          +:+ ". Response: " +:+ text response
  end.

Definition base : string := "https://www.ebi.ac.uk/biostudies/api/v1".

(** The map [search_studies] hands to the executor, from the parsed one. *)
Definition outgoing (d : gmap string string) : gmap string string :=
  set_if_absent "sortOrder" "descending"
    (set_if_absent "pageSize" "20"
       (set_if_absent "page" "1" (drop_facets (delete "collection" d)))).

(** A world whose network is down, and one whose service gives the same
    answer to every request; nothing has been sent in either. *)
Definition offline : World :=
  {| network := fun _ => Raised "Connection refused"; sent := [] |}.

Definition answering (response : Response) : World :=
  {| network := fun _ => Returned response; sent := [] |}.

(** Text between double quotes, and lines joined by the newline
    character, to write expected JSON texts down. *)
Definition quoted (s : string) : string :=
  String PyJson.dquote (s +:+ PyJson.chr PyJson.dquote).

Definition lines (l : list string) : string :=
  PyJson.join (PyJson.chr PyJson.newline) l.

Definition not_found : Response :=
  {| status_code := 404; text := "not found";
     json := Raised "Expecting value: line 1 column 1 (char 0)" |}.

(** The response [200] with body [{"a":1}], which parses to the object
    with the one member [a] of value [1]. *)
Definition ok_a1 : Response :=
  {| status_code := 200;
     text := "{" +:+ quoted "a" +:+ ":1}";
     json := Returned (JObject [("a", JInt 1)]) |}.

(** Printable ASCII or the newline character; texts made of such
    characters only; JSON values whose floats are written in such
    characters, as every [float.__repr__] is. *)
Definition plain_char (c : ascii) : bool :=
  let n := N_of_ascii c in
  ((n =? 10) || ((32 <=? n) && (n <=? 126)))%N.

Fixpoint plain_text (s : string) : bool :=
  match s with
  | EmptyString => true
  | String c rest => plain_char c && plain_text rest
  end.

Fixpoint floats_plain (o : JSON) : bool :=
  match o with
  | JFloat repr => plain_text repr
  | JArray items => forallb floats_plain items
  | JObject members => forallb (fun member => floats_plain (snd member)) members
  | _ => true
  end.

(** The response [200] whose body is an object with a title that has an
    accented letter and a line break in it. *)
Definition ok_title : Response :=
  {| status_code := 200;
     text := "{" +:+ quoted "title" +:+ ": " +:+ quoted "caf\u00e9\nau lait" +:+ "}";
     json := Returned (JObject [("title",
                                 JString ("café" +:+ PyJson.chr PyJson.newline
                                            +:+ "au lait"))]) |}.

(** ** The indented text, line by line

    The text the spec describes for a successful call, written down a
    second time without the encoder's running indentation level: a scalar
    is one line; an empty array or object is one line; any other array or
    object is an opening line, its items or members each moved two spaces
    to the right, all but the last followed by a comma, and a closing
    line.  A member's first line carries its key, a colon and a space. *)
Definition indent2 (ls : list string) : list string :=
  List.map (fun line => "  " +:+ line) ls.

Fixpoint with_comma (ls : list string) : list string :=
  match ls with
  | [] => []
  | [line] => [line +:+ ","]
  | line :: rest => line :: with_comma rest
  end.

Definition with_key (key : string) (ls : list string) : list string :=
  match ls with
  | [] => []
  | line :: rest =>
      (PyJson.encode_basestring_ascii key +:+ ": " +:+ line) :: rest
  end.

Fixpoint comma_blocks (blocks : list (list string)) : list string :=
  match blocks with
  | [] => []
  | [block] => block
  | block :: rest => with_comma block ++ comma_blocks rest
  end.

Fixpoint pretty_lines (o : JSON) : list string :=
  match o with
  | JNull => ["null"]
  | JBool true => ["true"]
  | JBool false => ["false"]
  | JInt n => [PyStr.of_int n]
  | JFloat repr => [repr]
  | JString s => [PyJson.encode_basestring_ascii s]
  | JArray [] => ["[]"]
  | JArray items =>
      "[" :: indent2 (comma_blocks (List.map pretty_lines items)) ++ ["]"]
  | JObject [] => ["{}"]
  | JObject members =>
      "{" :: indent2 (comma_blocks
                        (List.map (fun member =>
                                     with_key (fst member)
                                       (pretty_lines (snd member)))
                                  members))
          ++ ["}"]
  end.

(** ** JSON texts and the values they stand for

    A part of the JSON grammar, with the value [json.loads] gives for each
    text: the literals, decimal integers (CPython refuses integer texts of
    more than 4300 digits), strings of printable ASCII without quote or
    backslash, arrays, objects with distinct keys, and white space around
    any value.  Floats and escapes in strings are left out. *)
Definition whitespace_char (c : ascii) : bool :=
  let n := N_of_ascii c in
  ((n =? 32) || (n =? 9) || (n =? 10) || (n =? 13))%N.

Fixpoint whitespace (s : string) : bool :=
  match s with
  | EmptyString => true
  | String c rest => whitespace_char c && whitespace rest
  end.

Definition unescaped_char (c : ascii) : bool :=
  let n := N_of_ascii c in
  ((32 <=? n) && (n <=? 126) && negb (n =? 34) && negb (n =? 92))%N.

Fixpoint unescaped (s : string) : bool :=
  match s with
  | EmptyString => true
  | String c rest => unescaped_char c && unescaped rest
  end.

Inductive decodes : string -> JSON -> Prop :=
| decodes_null : decodes "null" JNull
| decodes_true : decodes "true" (JBool true)
| decodes_false : decodes "false" (JBool false)
| decodes_int (n : Z) :
    Z.abs n < 10 ^ 4300 -> decodes (PyStr.of_int n) (JInt n)
| decodes_string (s : string) :
    unescaped s = true -> decodes (quoted s) (JString s)
| decodes_empty_array (ws : string) :
    whitespace ws = true -> decodes ("[" +:+ ws +:+ "]") (JArray [])
| decodes_array (body : string) (item : JSON) (items : list JSON) :
    decodes_elements body (item :: items) ->
    decodes ("[" +:+ body +:+ "]") (JArray (item :: items))
| decodes_empty_object (ws : string) :
    whitespace ws = true -> decodes ("{" +:+ ws +:+ "}") (JObject [])
| decodes_object (body : string) (member : string * JSON)
    (members : list (string * JSON)) :
    decodes_members body (member :: members) ->
    NoDup (List.map fst (member :: members)) ->
    decodes ("{" +:+ body +:+ "}") (JObject (member :: members))
| decodes_padded (before after s : string) (o : JSON) :
    whitespace before = true -> whitespace after = true ->
    decodes s o -> decodes (before +:+ s +:+ after) o
with decodes_elements : string -> list JSON -> Prop :=
| elements_last (s : string) (o : JSON) :
    decodes s o -> decodes_elements s [o]
| elements_more (s rest : string) (o : JSON) (items : list JSON) :
    decodes s o -> decodes_elements rest items ->
    decodes_elements (s +:+ "," +:+ rest) (o :: items)
with decodes_members : string -> list (string * JSON) -> Prop :=
| members_last (s : string) (member : string * JSON) :
    decodes_member s member -> decodes_members s [member]
| members_more (s rest : string) (member : string * JSON)
    (members : list (string * JSON)) :
    decodes_member s member -> decodes_members rest members ->
    decodes_members (s +:+ "," +:+ rest) (member :: members)
with decodes_member : string -> string * JSON -> Prop :=
| member_pair (before after s key : string) (o : JSON) :
    whitespace before = true -> whitespace after = true ->
    unescaped key = true -> decodes s o ->
    decodes_member (before +:+ quoted key +:+ after +:+ ":" +:+ s) (key, o).

(** The values that part of the grammar reaches. *)
Inductive simple_value : JSON -> Prop :=
| simple_null : simple_value JNull
| simple_bool (b : bool) : simple_value (JBool b)
| simple_int (n : Z) : Z.abs n < 10 ^ 4300 -> simple_value (JInt n)
| simple_string (s : string) : unescaped s = true -> simple_value (JString s)
| simple_array (items : list JSON) :
    Forall simple_value items -> simple_value (JArray items)
| simple_object (members : list (string * JSON)) :
    NoDup (List.map fst members) ->
    Forall (fun member => unescaped (fst member) = true) members ->
    Forall (fun member => simple_value (snd member)) members ->
    simple_value (JObject members).

(** * Properties *)

(** ** Facts about the string operations *)

Section StringFacts.
Variable c : ascii.

Lemma contains_sep (k v : string) : PyStr.contains c (k +:+ String c v) = true.
Proof.
  induction k as [|x k IH]; simpl.
  - by rewrite Ascii.eqb_refl.
  - destruct (Ascii.eqb x c); [done | exact IH].
Qed.

Lemma split1_sep (k v : string) :
  PyStr.contains c k = false -> PyStr.split1 c (k +:+ String c v) = [k; v].
Proof.
  induction k as [|x k IH]; simpl.
  - by rewrite Ascii.eqb_refl.
  - destruct (Ascii.eqb x c); [done |].
    intros Hk. by rewrite (IH Hk).
Qed.

Lemma contains_decompose (s : string) :
  PyStr.contains c s = true ->
  exists k v, s = k +:+ String c v /\ PyStr.contains c k = false.
Proof.
  induction s as [|x s IH]; simpl; [done |].
  destruct (Ascii.eqb x c) eqn:Hx.
  - intros _. apply Ascii.eqb_eq in Hx as ->.
    by exists EmptyString, s.
  - intros Hs. destruct (IH Hs) as (k & v & -> & Hk).
    exists (String x k), v. simpl. by rewrite Hx.
Qed.

(** Every piece of a split is free of the separator. *)
Lemma split_pieces_free (s : string) :
  Forall (fun piece => PyStr.contains c piece = false) (PyStr.split c s).
Proof.
  induction s as [|x s IH]; simpl.
  - by constructor.
  - destruct (Ascii.eqb x c) eqn:Hx.
    + by constructor.
    + destruct (PyStr.split c s) as [|piece pieces].
      * constructor; [simpl; by rewrite Hx | done].
      * inversion IH; subst. constructor; [simpl; by rewrite Hx | done].
Qed.

End StringFacts.

Lemma startswith_app (p r : string) : PyStr.startswith (p +:+ r) p = true.
Proof.
  induction p as [|y p IH]; simpl; [done |].
  by rewrite Ascii.eqb_refl.
Qed.

Lemma startswith_decompose (s p : string) :
  PyStr.startswith s p = true -> exists r, s = p +:+ r.
Proof.
  revert s. induction p as [|y p IH]; intros s; simpl.
  - intros _. by exists s.
  - destruct s as [|x s]; [done |].
    destruct (Ascii.eqb x y) eqn:Hx; [| done].
    apply Ascii.eqb_eq in Hx as ->.
    intros Hs. destruct (IH _ Hs) as [r ->]. by exists r.
Qed.

Lemma append_cons (x : ascii) (a b : string) :
  String x a +:+ b = String x (a +:+ b).
Proof. reflexivity. Qed.

Lemma append_assoc (a b d : string) : (a +:+ b) +:+ d = a +:+ (b +:+ d).
Proof.
  induction a as [|x a IH]; [reflexivity |].
  by rewrite !append_cons, IH.
Qed.

Lemma append_length (a b : string) :
  String.length (a +:+ b) = (String.length a + String.length b)%nat.
Proof.
  induction a as [|x a IH]; [reflexivity |].
  rewrite append_cons. simpl. by rewrite IH.
Qed.

(** ** The encoder on sample values *)

Example dumps_nested :
  PyJson.dumps
    (JObject [("a", JArray [JInt 1; JObject [("b", JNull)]; JArray []]);
              ("c", JString "é"); ("d", JObject [])]) 2
  = lines ["{";
           "  " +:+ quoted "a" +:+ ": [";
           "    1,";
           "    {";
           "      " +:+ quoted "b" +:+ ": null";
           "    },";
           "    []";
           "  ],";
           "  " +:+ quoted "c" +:+ ": " +:+ quoted "\u00e9" +:+ ",";
           "  " +:+ quoted "d" +:+ ": {}";
           "}"].
Proof. reflexivity. Qed.

Example dumps_scalars :
  PyJson.dumps (JInt (-12)) 2 = "-12"
  /\ PyJson.dumps (JBool false) 2 = "false"
  /\ PyJson.dumps JNull 2 = "null"
  /\ PyJson.dumps (JFloat "1.5") 2 = "1.5"
  /\ PyJson.dumps (JString ("a" +:+ PyJson.chr PyJson.newline +:+ "😀")) 2
     = quoted "a\n\ud83d\ude00".
Proof. repeat split; reflexivity. Qed.

(** ** The parsed map, pair by pair *)

Lemma entry_contains (k v : string) : PyStr.contains "=" (k +:+ "=" +:+ v) = true.
Proof. exact (contains_sep "=" k v). Qed.

Lemma entry_split1 (k v : string) :
  PyStr.contains "=" k = false -> PyStr.split1 "=" (k +:+ "=" +:+ v) = [k; v].
Proof. exact (split1_sep "=" k v). Qed.

Lemma is_entry_inj k v k' v' p : is_entry k v p -> is_entry k' v' p -> k = k' /\ v = v'.
Proof.
  intros [-> Hk] [Heq Hk'].
  pose proof (entry_split1 k v Hk) as H1.
  rewrite Heq, (entry_split1 k' v' Hk') in H1.
  by simplify_eq.
Qed.

Lemma entry_or_skip (p : string) :
  (exists k v, is_entry k v p) \/ PyStr.contains "=" p = false.
Proof.
  destruct (PyStr.contains "=" p) eqn:Hp; [left | by right].
  destruct (contains_decompose _ _ Hp) as (k & v & -> & Hk).
  by exists k, v.
Qed.

Lemma parse_pairs_entry k v p rest d :
  is_entry k v p -> parse_pairs (p :: rest) d = parse_pairs rest (<[k := v]> d).
Proof.
  intros [-> Hk]. simpl.
  by rewrite (entry_contains k v), (entry_split1 k v Hk).
Qed.

Lemma parse_pairs_skip p rest d :
  PyStr.contains "=" p = false -> parse_pairs (p :: rest) d = parse_pairs rest d.
Proof. intros Hp. simpl. by rewrite Hp. Qed.

Lemma skip_not_binds k p : PyStr.contains "=" p = false -> ~ binds k p.
Proof.
  intros Hp [v [-> _]]. by rewrite (entry_contains k v) in Hp.
Qed.

Lemma binds_startswith k p :
  PyStr.contains "=" k = false ->
  binds k p <-> PyStr.startswith p (k +:+ "=") = true.
Proof.
  intros Hk. split.
  - intros [v [-> _]]. rewrite <- append_assoc. apply startswith_app.
  - intros [r ->]%startswith_decompose. exists r. split; [| done].
    by rewrite append_assoc.
Qed.

(** Where an entry of the parsed map comes from: the last pair that binds
    its key, or the map the loop started with. *)
Lemma parse_pairs_spec (pairs : list string) :
  forall d : gmap string string,
  exists d', parse_pairs pairs d = Returned d' /\
    forall k v,
      d' !! k = Some v <->
      (exists l1 p l2, pairs = l1 ++ p :: l2 /\ is_entry k v p
                       /\ Forall (fun q => ~ binds k q) l2)
      \/ (Forall (fun q => ~ binds k q) pairs /\ d !! k = Some v).
Proof.
  induction pairs as [|p rest IH]; intros d.
  - exists d. split; [done |]. intros k v. split.
    + intros Hd. right. by split.
    + intros [(l1 & q & l2 & Heq & _) | [_ Hd]]; [| done].
      by destruct l1.
  - destruct (entry_or_skip p) as [(k0 & v0 & Hp) | Hp].
    + rewrite (parse_pairs_entry _ _ _ _ _ Hp).
      destruct (IH (<[k0 := v0]> d)) as (d' & Hrun & Hd'). clear IH.
      exists d'. split; [done |]. intros k v. rewrite Hd'. clear Hd'. split.
      * intros [(l1 & q & l2 & -> & Hq & Hfree) | [Hfree Hlook]].
        { left. by exists (p :: l1), q, l2. }
        apply lookup_insert_Some in Hlook as [[<- <-] | [Hne Hlook]].
        { left. by exists [], p, rest. }
        right. split; [| done]. constructor; [| done].
        intros [v' Hv']. by destruct (is_entry_inj _ _ _ _ _ Hp Hv').
      * intros [(l1 & q & l2 & Heq & Hq & Hfree) | [Hfree Hlook]].
        { destruct l1 as [|p' l1]; simplify_eq/=.
          - destruct (is_entry_inj _ _ _ _ _ Hp Hq) as [<- <-].
            right. split; [done |]. apply lookup_insert_eq.
          - left. by exists l1, q, l2. }
        inversion Hfree as [|? ? Hnot Hrest]; subst.
        right. split; [done |].
        rewrite lookup_insert_ne; [done |].
        intros <-. apply Hnot. by exists v0.
    + rewrite (parse_pairs_skip _ _ _ Hp).
      destruct (IH d) as (d' & Hrun & Hd'). clear IH.
      exists d'. split; [done |]. intros k v. rewrite Hd'. clear Hd'. split.
      * intros [(l1 & q & l2 & -> & Hq & Hfree) | [Hfree Hlook]].
        { left. by exists (p :: l1), q, l2. }
        right. split; [| done]. constructor; [| done].
        by apply skip_not_binds.
      * intros [(l1 & q & l2 & Heq & Hq & Hfree) | [Hfree Hlook]].
        { destruct l1 as [|p' l1]; simplify_eq/=.
          - destruct Hq as [-> _]. by rewrite entry_contains in Hp.
          - left. by exists l1, q, l2. }
        inversion Hfree; subst. by right.
Qed.

Lemma entry_nonempty (k v : string) : k +:+ "=" +:+ v <> "".
Proof.
  intros Heq. pose proof (entry_contains k v) as H.
  by rewrite Heq in H.
Qed.

Lemma free_of_binders (k : string) (l : list string) :
  PyStr.contains "=" k = false ->
  Forall (fun q => ~ binds k q) l <->
  Forall (fun q => PyStr.startswith q (k +:+ "=") = false) l.
Proof.
  intros Hk. apply Forall_iff. intros q.
  rewrite (binds_startswith _ _ Hk).
  by destruct (PyStr.startswith q (k +:+ "=")).
Qed.

(** The parsed map of a raw string: [key] is bound to [value] exactly when
    [key=value] (cut at its first [=]) is the last pair with that key. *)
Lemma parse_params_spec (params : string) :
  exists d, parse_params params = Returned d /\
    forall k v,
      d !! k = Some v <->
      exists l1 l2,
        PyStr.split "&" params = l1 ++ (k +:+ "=" +:+ v) :: l2
        /\ PyStr.contains "=" k = false
        /\ Forall (fun q => PyStr.startswith q (k +:+ "=") = false) l2.
Proof.
  unfold parse_params. destruct params as [|x params].
  - exists ∅. split; [done |]. intros k v. split; [by rewrite lookup_empty |].
    intros (l1 & l2 & Heq & _). simpl in Heq.
    destruct l1 as [|? l1]; simplify_eq/=.
    + by destruct (entry_nonempty k v).
    + by destruct l1.
  - cbn [PyStr.truthy].
    destruct (parse_pairs_spec (PyStr.split "&" (String x params)) ∅)
      as (d & Hrun & Hd).
    exists d. split; [done |]. intros k v. rewrite Hd. clear Hd. split.
    + intros [(l1 & p & l2 & Heq & [-> Hk] & Hfree) | [_ Hlook]].
      * exists l1, l2. by rewrite <- (free_of_binders k l2 Hk).
      * by rewrite lookup_empty in Hlook.
    + intros (l1 & l2 & Heq & Hk & Hfree). left.
      exists l1, (k +:+ "=" +:+ v), l2.
      by rewrite (free_of_binders k l2 Hk).
Qed.

Lemma parse_params_total (params : string) :
  exists d, parse_params params = Returned d.
Proof. destruct (parse_params_spec params) as (d & Hd & _). by exists d. Qed.

(** ** The executor, run *)

Lemma make_api_request_run url params w :
  _make_api_request url params w =
    (Returned (render (network w {| req_url := url; req_params := params |})),
     {| network := network w;
        sent := sent w ++ [{| req_url := url; req_params := params |}] |}).
Proof.
  unfold _make_api_request, try_except, bind, requests_get, lift, ret, render.
  destruct (network w _) as [response | e]; [| done].
  destruct (status_code response =? 200); [| done].
  by destruct (json response).
Qed.

(** ** The search request *)

Lemma search_studies_run params w :
  exists d, parse_params params = Returned d /\
    search_studies params w =
      _make_api_request (select_base_url (d !! "collection")) (Some (outgoing d)) w.
Proof.
  destruct (parse_params_total params) as [d Hd].
  exists d. split; [done |].
  unfold search_studies, bind, lift. by rewrite Hd.
Qed.

Lemma set_if_absent_lookup key value (m : gmap string string) k :
  set_if_absent key value m !! k =
    if decide (k = key) then Some (default value (m !! key)) else m !! k.
Proof.
  unfold set_if_absent. destruct (m !! key) eqn:Hm; case_decide; subst; simpl.
  - done.
  - done.
  - apply lookup_insert_eq.
  - by apply lookup_insert_ne.
Qed.

Lemma drop_facets_lookup (m : gmap string string) k :
  drop_facets m !! k = if PyStr.startswith k "facet." then None else m !! k.
Proof.
  unfold drop_facets. rewrite map_lookup_filter.
  destruct (m !! k) as [v|]; cbn [mbind option_bind].
  - destruct (PyStr.startswith k "facet.") eqn:Hk.
    + by rewrite option_guard_False by (cbn [fst]; congruence).
    + by rewrite option_guard_True by (cbn [fst]; congruence).
  - by destruct (PyStr.startswith k "facet.").
Qed.

(** Every lookup in the outgoing map, in terms of the parsed one. *)
Lemma outgoing_lookup (d : gmap string string) k :
  outgoing d !! k =
    if decide (k = "sortOrder") then Some (default "descending" (d !! "sortOrder"))
    else if decide (k = "pageSize") then Some (default "20" (d !! "pageSize"))
    else if decide (k = "page") then Some (default "1" (d !! "page"))
    else if PyStr.startswith k "facet." then None
    else if decide (k = "collection") then None
    else d !! k.
Proof.
  unfold outgoing. rewrite !set_if_absent_lookup, !drop_facets_lookup.
  repeat case_decide; subst; try done.
  - by rewrite lookup_delete_ne.
  - by rewrite lookup_delete_ne.
  - by rewrite lookup_delete_ne.
  - destruct (PyStr.startswith _ "facet."); [done |]. apply lookup_delete_eq.
  - destruct (PyStr.startswith k "facet."); [done |]. by apply lookup_delete_ne.
Qed.

Lemma search_studies_sent params w :
  exists d, parse_params params = Returned d /\
    sent (search_studies params w).2 =
      sent w ++ [{| req_url := select_base_url (d !! "collection");
                    req_params := Some (outgoing d) |}].
Proof.
  destruct (search_studies_run params w) as (d & Hd & ->).
  exists d. split; [done |]. by rewrite make_api_request_run.
Qed.

Lemma scoped_not_global (X : string) :
  base +:+ "/" +:+ X +:+ "/search" <> base +:+ "/search".
Proof.
  change (base +:+ "/" +:+ X +:+ "/search")
    with ((base +:+ "/") +:+ (X +:+ "/search")).
  change (base +:+ "/search") with ((base +:+ "/") +:+ "search").
  intros Heq%(inj (String.app _)).
  apply (f_equal String.length) in Heq.
  rewrite append_length in Heq. simpl in Heq. lia.
Qed.

(** ** Claims about [search_studies] *)

(** C1, as stated, fails when the value is empty: for the raw string
    [collection=] the pair [collection=X] has [X] empty, and the request
    goes to the global endpoint [{base}/search], which is not
    [{base}/{X}/search]. *)
Lemma collection_empty_value_counterexample :
  PyStr.split "&" "collection=" = [] ++ ("collection=" +:+ "") :: []
  /\ map req_url (sent (search_studies "collection=" offline).2) = [base +:+ "/search"]
  /\ base +:+ "/search" <> base +:+ "/" +:+ "" +:+ "/search".
Proof.
  split; [reflexivity |]. split; [vm_compute; reflexivity |].
  intros Heq. symmetry in Heq. by apply scoped_not_global in Heq.
Qed.

(** C1 (amended): [search_studies] issues one request, and its parameter
    map never has a [collection] key.  When [collection=X] is among the
    pairs of the raw string and no later pair starts with [collection=],
    the request goes to [{base}/{X}/search] if [X] is not empty, and to
    the global [{base}/search] if [X] is empty; with no pair starting with
    [collection=] it goes to [{base}/search].  The two endpoints differ. *)
Theorem search_collection_endpoint (params : string) (w : World) :
  exists url m,
    sent (search_studies params w).2
      = sent w ++ [{| req_url := url; req_params := Some m |}]
    /\ m !! "collection" = None
    /\ (forall l1 X l2,
          PyStr.split "&" params = l1 ++ ("collection=" +:+ X) :: l2 ->
          Forall (fun q => PyStr.startswith q "collection=" = false) l2 ->
          url = if decide (X = "") then base +:+ "/search"
                else base +:+ "/" +:+ X +:+ "/search")
    /\ (Forall (fun q => PyStr.startswith q "collection=" = false)
               (PyStr.split "&" params) ->
          url = base +:+ "/search")
    /\ (forall X, base +:+ "/" +:+ X +:+ "/search" <> base +:+ "/search").
Proof.
  destruct (search_studies_sent params w) as (d & Hd & Hsent).
  destruct (parse_params_spec params) as (d' & Hd' & Hspec).
  rewrite Hd in Hd'. injection Hd' as <-.
  exists (select_base_url (d !! "collection")), (outgoing d).
  split; [exact Hsent |]. split; [by rewrite outgoing_lookup |].
  split; [| split; [| exact scoped_not_global]].
  - intros l1 X l2 Hsplit Hfree.
    assert (d !! "collection" = Some X) as ->.
    { apply Hspec. by exists l1, l2. }
    by destruct X.
  - intros Hfree.
    destruct (d !! "collection") as [X|] eqn:HX; [| done].
    apply Hspec in HX as (l1 & l2 & Hsplit & _ & _).
    rewrite Hsplit in Hfree.
    apply Forall_app in Hfree as [_ Hfree].
    inversion Hfree as [|? ? Hhead _]; subst.
    change ("collection" +:+ "=" +:+ X) with ("collection=" +:+ X) in Hhead.
    by rewrite startswith_app in Hhead.
Qed.

(** C2: the empty string gives one request, to the global search
    endpoint, whose parameter map is exactly the three defaults. *)
Theorem search_empty_string_defaults (w : World) :
  sent (search_studies "" w).2
    = sent w ++ [{| req_url := base +:+ "/search";
                    req_params := Some {[ "page" := "1"; "pageSize" := "20";
                                          "sortOrder" := "descending" ]} |}].
Proof.
  destruct (search_studies_sent "" w) as (d & Hd & ->).
  injection Hd as <-.
  reflexivity.
Qed.

(** C3: the values the parsed map has for [page], [pageSize] and
    [sortOrder] reach the request unchanged, whatever they are; a key gets
    its default only when the parsed map lacks it. *)
Theorem pagination_values_preserved (params : string) (w : World)
    (d : gmap string string) :
  parse_params params = Returned d ->
  exists url m,
    sent (search_studies params w).2
      = sent w ++ [{| req_url := url; req_params := Some m |}]
    /\ forall key value,
         (key, value) ∈ [("page", "1"); ("pageSize", "20");
                          ("sortOrder", "descending")] ->
         (forall v, d !! key = Some v -> m !! key = Some v)
         /\ (d !! key = None -> m !! key = Some value).
Proof.
  intros Hd.
  destruct (search_studies_sent params w) as (d' & Hd' & Hsent).
  rewrite Hd in Hd'. injection Hd' as <-.
  exists (select_base_url (d !! "collection")), (outgoing d).
  split; [exact Hsent |].
  intros key value Hin.
  repeat (apply elem_of_cons in Hin as [[= -> ->] | Hin]);
    [| | | by apply elem_of_nil in Hin].
  all: rewrite outgoing_lookup; simpl.
  all: split; [intros v -> | intros ->]; done.
Qed.

Lemma pagination_values_preserved_witness :
  exists url m,
    sent (search_studies "page=&pageSize=50&sortOrder=ascending" offline).2
      = sent offline ++ [{| req_url := url; req_params := Some m |}]
    /\ forall key value,
         (key, value) ∈ [("page", "1"); ("pageSize", "20");
                          ("sortOrder", "descending")] ->
         (forall v,
             ({[ "page" := ""; "pageSize" := "50"; "sortOrder" := "ascending" ]}
                : gmap string string) !! key = Some v ->
             m !! key = Some v)
         /\ (({[ "page" := ""; "pageSize" := "50"; "sortOrder" := "ascending" ]}
                : gmap string string) !! key = None ->
             m !! key = Some value).
Proof.
  apply (pagination_values_preserved
           "page=&pageSize=50&sortOrder=ascending" offline
           {[ "page" := ""; "pageSize" := "50"; "sortOrder" := "ascending" ]}).
  vm_compute. reflexivity.
Defined.

(** C4: no key that starts with [facet.] is in the parameter map of the
    request, wherever its pair stands in the raw string. *)
Theorem facet_keys_dropped (params : string) (w : World) (key : string) :
  PyStr.startswith key "facet." = true ->
  exists url m,
    sent (search_studies params w).2
      = sent w ++ [{| req_url := url; req_params := Some m |}]
    /\ m !! key = None.
Proof.
  intros Hkey.
  destruct (search_studies_sent params w) as (d & _ & Hsent).
  exists (select_base_url (d !! "collection")), (outgoing d).
  split; [exact Hsent |].
  rewrite outgoing_lookup.
  repeat case_decide; subst; try discriminate Hkey.
  by rewrite Hkey.
Qed.

Lemma facet_keys_dropped_witness :
  exists url m,
    sent (search_studies "query=x&facet.organism=human&page=2" offline).2
      = sent offline ++ [{| req_url := url; req_params := Some m |}]
    /\ m !! "facet.organism" = None.
Proof.
  apply (facet_keys_dropped "query=x&facet.organism=human&page=2" offline
           "facet.organism").
  reflexivity.
Defined.

(** C5: the raw string is split on [&] and each pair on its first [=]:
    the parsed map binds [k] to [v] exactly when [k=v], with no [=] in
    [k], is the last pair whose key is [k] (so [v] may contain [=], a pair
    without [=] binds nothing, and a later pair for a key replaces an
    earlier one); and [query=cancer&badpair&page=2] gives the request map
    [{query: cancer, page: 2, pageSize: 20, sortOrder: descending}]. *)
Theorem parse_params_pairs :
  (forall params,
     exists d, parse_params params = Returned d /\
       forall k v,
         d !! k = Some v <->
         exists l1 l2,
           PyStr.split "&" params = l1 ++ (k +:+ "=" +:+ v) :: l2
           /\ PyStr.contains "=" k = false
           /\ Forall (fun q => PyStr.startswith q (k +:+ "=") = false) l2)
  /\ (forall w,
        sent (search_studies "query=cancer&badpair&page=2" w).2
          = sent w ++ [{| req_url := base +:+ "/search";
                          req_params :=
                            Some {[ "query" := "cancer"; "page" := "2";
                                    "pageSize" := "20";
                                    "sortOrder" := "descending" ]} |}]).
Proof.
  split; [exact parse_params_spec |].
  intros w.
  destruct (search_studies_sent "query=cancer&badpair&page=2" w) as (d & Hd & ->).
  injection Hd as <-.
  reflexivity.
Qed.

Lemma last_match {A} (f : A -> bool) (l : list A) :
  Exists (fun x => f x = true) l ->
  exists l1 x l2, l = l1 ++ x :: l2 /\ f x = true
                  /\ Forall (fun y => f y = false) l2.
Proof.
  induction l as [|a l IH]; intros Hex; [by inversion Hex |].
  destruct (decide (Exists (fun x => f x = true) l)) as [Hl | Hl].
  - destruct (IH Hl) as (l1 & x & l2 & -> & Hx & Hfree).
    by exists (a :: l1), x, l2.
  - exists [], a, l. split; [done |]. split.
    + by inversion Hex.
    + apply not_Exists_Forall in Hl; [| apply _].
      eapply Forall_impl; [exact Hl |]. simpl. intros y Hy.
      by destruct (f y).
Qed.

(** C10: when some pair of the raw string begins with [=], the request's
    parameter map has an entry under the empty key, whose value is what
    follows the [=] in one of those pairs. *)
Theorem empty_key_retained (params : string) (w : World) (q : string) :
  q ∈ PyStr.split "&" params ->
  PyStr.startswith q "=" = true ->
  exists url m value,
    sent (search_studies params w).2
      = sent w ++ [{| req_url := url; req_params := Some m |}]
    /\ m !! "" = Some value
    /\ ("=" +:+ value) ∈ PyStr.split "&" params.
Proof.
  intros Hq Hstart.
  destruct (search_studies_sent params w) as (d & Hd & Hsent).
  destruct (parse_params_spec params) as (d' & Hd' & Hspec).
  rewrite Hd in Hd'. injection Hd' as <-.
  destruct (last_match (fun p => PyStr.startswith p "=") (PyStr.split "&" params))
    as (l1 & p & l2 & Hsplit & Hp & Hfree).
  { apply Exists_exists. by exists q. }
  apply startswith_decompose in Hp as [value ->].
  exists (select_base_url (d !! "collection")), (outgoing d), value.
  split; [exact Hsent |]. split.
  - rewrite outgoing_lookup. simpl.
    apply Hspec. by exists l1, l2.
  - rewrite Hsplit. apply elem_of_app. right. apply elem_of_cons. by left.
Qed.

Lemma empty_key_retained_witness :
  exists url m value,
    sent (search_studies "query=x&=v&page=2" offline).2
      = sent offline ++ [{| req_url := url; req_params := Some m |}]
    /\ m !! "" = Some value
    /\ ("=" +:+ value) ∈ PyStr.split "&" "query=x&=v&page=2".
Proof.
  apply (empty_key_retained "query=x&=v&page=2" offline "=v").
  - apply elem_of_cons. right. apply elem_of_cons. by left.
  - reflexivity.
Defined.

(** ** The encoder against the line-by-line layout *)

Lemma append_nil_r (s : string) : s +:+ "" = s.
Proof. induction s as [|x s IH]; [reflexivity |]. by rewrite append_cons, IH. Qed.

Lemma spaces_two_more (n : nat) :
  PyJson.spaces (S (S n)) = PyJson.spaces n +:+ "  ".
Proof.
  induction n as [|n IH]; [reflexivity |].
  change (PyJson.spaces (S (S (S n)))) with (String " " (PyJson.spaces (S (S n)))).
  rewrite IH. reflexivity.
Qed.

Lemma newline_indent_S (level : nat) :
  PyJson.newline_indent 2 (S level) = PyJson.newline_indent 2 level +:+ "  ".
Proof.
  unfold PyJson.newline_indent. rewrite append_cons. f_equal.
  replace (2 * S level)%nat with (S (S (2 * level))) by lia.
  apply spaces_two_more.
Qed.

Lemma join_cons (sep x : string) (l : list string) :
  l <> [] -> PyJson.join sep (x :: l) = x +:+ sep +:+ PyJson.join sep l.
Proof. by destruct l. Qed.

Lemma join_app (sep : string) (l1 l2 : list string) :
  l1 <> [] -> l2 <> [] ->
  PyJson.join sep (l1 ++ l2) = PyJson.join sep l1 +:+ sep +:+ PyJson.join sep l2.
Proof.
  intros H1 H2. induction l1 as [|x l1 IH]; [done |].
  destruct l1 as [|y l1].
  - change (PyJson.join sep (x :: l2) = x +:+ sep +:+ PyJson.join sep l2).
    by apply join_cons.
  - change ((x :: y :: l1) ++ l2) with (x :: (y :: l1) ++ l2).
    rewrite (join_cons sep x ((y :: l1) ++ l2)) by done.
    rewrite IH by done.
    rewrite (join_cons sep x (y :: l1)) by done.
    by rewrite !append_assoc.
Qed.

Lemma with_comma_nonempty (l : list string) : l <> [] -> with_comma l <> [].
Proof. destruct l as [|x [|y l]]; done. Qed.

Lemma join_with_comma (sep : string) (l : list string) :
  l <> [] -> PyJson.join sep (with_comma l) = PyJson.join sep l +:+ ",".
Proof.
  induction l as [|x l IH]; [done |]. intros _.
  destruct l as [|y l]; [reflexivity |].
  change (with_comma (x :: y :: l)) with (x :: with_comma (y :: l)).
  rewrite (join_cons sep x (with_comma (y :: l))) by by apply with_comma_nonempty.
  rewrite IH by done.
  rewrite (join_cons sep x (y :: l)) by done.
  by rewrite !append_assoc.
Qed.

Lemma join_with_key (sep key : string) (l : list string) :
  l <> [] ->
  PyJson.join sep (with_key key l)
    = PyJson.encode_basestring_ascii key +:+ ": " +:+ PyJson.join sep l.
Proof.
  destruct l as [|x l]; [done |]. intros _. simpl with_key.
  destruct l as [|y l]; [reflexivity |].
  rewrite !join_cons by done. by rewrite !append_assoc.
Qed.

Lemma with_key_nonempty (key : string) (l : list string) :
  l <> [] -> with_key key l <> [].
Proof. by destruct l. Qed.

Lemma join_indent2 (level : nat) (l : list string) :
  l <> [] ->
  PyJson.join (PyJson.newline_indent 2 level) (indent2 l)
    = "  " +:+ PyJson.join (PyJson.newline_indent 2 (S level)) l.
Proof.
  induction l as [|x l IH]; [done |]. intros _.
  destruct l as [|y l]; [reflexivity |].
  change (indent2 (x :: y :: l)) with (("  " +:+ x) :: indent2 (y :: l)).
  rewrite (join_cons _ _ (indent2 (y :: l))) by done.
  rewrite IH by done.
  rewrite (join_cons _ x (y :: l)) by done.
  rewrite newline_indent_S. by rewrite !append_assoc.
Qed.

Lemma comma_blocks_nonempty (blocks : list (list string)) :
  blocks <> [] -> Forall (fun block => block <> []) blocks ->
  comma_blocks blocks <> [].
Proof.
  destruct blocks as [|b [|b' blocks]]; [done | |]; intros _ Hall.
  - by inversion Hall.
  - inversion Hall as [|? ? Hb _]; subst.
    change (comma_blocks (b :: b' :: blocks))
      with (with_comma b ++ comma_blocks (b' :: blocks)).
    intros Heq%app_eq_nil. destruct Heq as [Heq _].
    by apply (with_comma_nonempty b).
Qed.

Lemma join_comma_blocks (sep : string) (blocks : list (list string)) :
  Forall (fun block => block <> []) blocks ->
  PyJson.join sep (comma_blocks blocks)
    = PyJson.join ("," +:+ sep) (List.map (PyJson.join sep) blocks).
Proof.
  induction blocks as [|b blocks IH]; [done |]. intros Hall.
  inversion Hall as [|? ? Hb Hrest]; subst.
  destruct blocks as [|b' blocks]; [reflexivity |].
  change (comma_blocks (b :: b' :: blocks))
    with (with_comma b ++ comma_blocks (b' :: blocks)).
  rewrite join_app;
    [| by apply with_comma_nonempty | by apply comma_blocks_nonempty].
  rewrite join_with_comma, IH by done.
  change (List.map (PyJson.join sep) (b :: b' :: blocks))
    with (PyJson.join sep b :: List.map (PyJson.join sep) (b' :: blocks)).
  rewrite (join_cons ("," +:+ sep)) by done.
  by rewrite !append_assoc.
Qed.

Lemma pretty_lines_nonempty (o : JSON) : pretty_lines o <> [].
Proof. by destruct o as [| [|] | | | | [|? ?] | [|? ?]]. Qed.

(** Induction on a JSON value, with the hypothesis for every item of an
    array and every member of an object. *)
Lemma JSON_nested_ind (P : JSON -> Prop) :
  P JNull -> (forall b, P (JBool b)) -> (forall n, P (JInt n)) ->
  (forall repr, P (JFloat repr)) -> (forall s, P (JString s)) ->
  (forall items, Forall P items -> P (JArray items)) ->
  (forall members, Forall (fun member => P (snd member)) members ->
                   P (JObject members)) ->
  forall o, P o.
Proof.
  intros Hnull Hbool Hint Hfloat Hstring Harray Hobject.
  fix IH 1. intros [| b | n | repr | s | items | members].
  - exact Hnull.
  - apply Hbool.
  - apply Hint.
  - apply Hfloat.
  - apply Hstring.
  - apply Harray. induction items as [|x items IHitems]; constructor.
    + apply IH.
    + exact IHitems.
  - apply Hobject. induction members as [|[k x] members IHmembers]; constructor.
    + apply IH.
    + exact IHmembers.
Qed.

(** The encoder's text at a nesting level is the lines of the layout,
    each begun two spaces further in per level. *)
Lemma iterencode_pretty_lines (o : JSON) :
  forall level,
    PyJson.iterencode 2 level o
      = PyJson.join (PyJson.newline_indent 2 level) (pretty_lines o).
Proof.
  induction o as [| b | n | repr | s | items IH | members IH]
    using JSON_nested_ind; intros level; try reflexivity.
  - by destruct b.
  - destruct items as [|x items]; [reflexivity |].
    cbn [PyJson.iterencode pretty_lines].
    rewrite join_cons by (by destruct (indent2 _)).
    rewrite join_app; [| | done].
    2: { unfold indent2. intros Heq%map_eq_nil. revert Heq.
         apply comma_blocks_nonempty; [done |].
         apply Forall_forall. intros block Hin%list_elem_of_In.
         apply in_map_iff in Hin as (y & <- & _). apply pretty_lines_nonempty. }
    rewrite join_indent2.
    2: { apply comma_blocks_nonempty; [done |].
         apply Forall_forall. intros block Hin%list_elem_of_In.
         apply in_map_iff in Hin as (y & <- & _). apply pretty_lines_nonempty. }
    rewrite join_comma_blocks.
    2: { apply Forall_forall. intros block Hin%list_elem_of_In.
         apply in_map_iff in Hin as (y & <- & _). apply pretty_lines_nonempty. }
    rewrite List.map_map.
    rewrite (List.map_ext_in (fun v => PyJson.join (PyJson.newline_indent 2 (S level))
                                         (pretty_lines v))
               (PyJson.iterencode 2 (S level))).
    2: { intros v Hv. symmetry. rewrite Forall_forall in IH.
         apply IH. by apply list_elem_of_In. }
    rewrite newline_indent_S. cbn [PyJson.join].
    by rewrite !append_assoc.
  - destruct members as [|m members]; [reflexivity |].
    cbn [PyJson.iterencode pretty_lines].
    rewrite join_cons by (by destruct (indent2 _)).
    assert (Forall (fun block : list string => block <> [])
              (List.map (fun member => with_key (fst member)
                                         (pretty_lines (snd member)))
                        (m :: members))) as Hblocks.
    { apply Forall_forall. intros block Hin%list_elem_of_In.
      apply in_map_iff in Hin as (y & <- & _).
      apply with_key_nonempty, pretty_lines_nonempty. }
    rewrite join_app; [| | done].
    2: { unfold indent2. intros Heq%map_eq_nil. revert Heq.
         by apply comma_blocks_nonempty. }
    rewrite join_indent2 by (by apply comma_blocks_nonempty).
    rewrite join_comma_blocks by done.
    rewrite List.map_map.
    rewrite (List.map_ext_in
               (fun member => PyJson.join (PyJson.newline_indent 2 (S level))
                                (with_key (fst member) (pretty_lines (snd member))))
               (fun member => PyJson.encode_basestring_ascii (fst member) +:+ ": "
                              +:+ PyJson.iterencode 2 (S level) (snd member))).
    2: { intros member Hmember. rewrite join_with_key by apply pretty_lines_nonempty.
         rewrite Forall_forall in IH.
         by rewrite <- (IH member) by (by apply list_elem_of_In). }
    rewrite newline_indent_S. cbn [PyJson.join].
    by rewrite !append_assoc.
Qed.

Lemma dumps_pretty_lines (o : JSON) : PyJson.dumps o 2 = lines (pretty_lines o).
Proof. apply iterencode_pretty_lines. Qed.

(** ** The encoder's text stands for the value *)

Lemma whitespace_newline_indent (indent level : nat) :
  whitespace (PyJson.newline_indent indent level) = true.
Proof.
  unfold PyJson.newline_indent. cbn [whitespace].
  rewrite andb_true_iff. split; [reflexivity |].
  induction (indent * level)%nat as [|k IH]; [reflexivity |].
  simpl. exact IH.
Qed.

Lemma escape_unescaped_char (c : ascii) :
  unescaped_char c = true ->
  PyJson.escape_code_point (N_of_ascii c) = PyJson.chr c.
Proof.
  unfold unescaped_char. cbv zeta.
  rewrite !andb_true_iff, !negb_true_iff.
  intros [[[Hlo Hhi] Hquote] Hback].
  apply N.leb_le in Hlo. apply N.leb_le in Hhi.
  unfold PyJson.escape_code_point.
  rewrite Hquote, Hback.
  rewrite (proj2 (N.eqb_neq _ 8)), (proj2 (N.eqb_neq _ 12)),
    (proj2 (N.eqb_neq _ 10)), (proj2 (N.eqb_neq _ 13)),
    (proj2 (N.eqb_neq _ 9)) by lia.
  rewrite (proj2 (N.leb_le 32 _) Hlo), (proj2 (N.leb_le _ 126) Hhi).
  cbn [andb]. by rewrite ascii_N_embedding.
Qed.

Lemma code_points_unescaped_char (c : ascii) (s : string) :
  unescaped_char c = true ->
  PyJson.code_points (String c s) = N_of_ascii c :: PyJson.code_points s.
Proof.
  unfold unescaped_char. cbv zeta.
  rewrite !andb_true_iff. intros [[[_ Hhi] _] _]. apply N.leb_le in Hhi.
  assert ((N_of_ascii c <? 192)%N = true) as Hlt by (apply N.ltb_lt; lia).
  cbn [PyJson.code_points]. cbv zeta. by rewrite Hlt.
Qed.

Lemma encode_unescaped (s : string) :
  unescaped s = true -> PyJson.encode_basestring_ascii s = quoted s.
Proof.
  intros Hs. unfold PyJson.encode_basestring_ascii, quoted. f_equal.
  induction s as [|c s IH]; [reflexivity |].
  cbn [unescaped] in Hs. apply andb_true_iff in Hs as [Hc Hs].
  rewrite (code_points_unescaped_char c s Hc). cbn [foldr].
  rewrite (escape_unescaped_char c Hc), (IH Hs). reflexivity.
Qed.

Lemma elements_join (enc : JSON -> string) (before after : string)
    (x : JSON) (items : list JSON) :
  whitespace before = true -> whitespace after = true ->
  Forall (fun o => decodes (enc o) o) (x :: items) ->
  decodes_elements
    (before +:+ PyJson.join ("," +:+ before) (List.map enc (x :: items)) +:+ after)
    (x :: items).
Proof.
  intros Hbefore Hafter. revert x.
  induction items as [|y items IH]; intros x Hall;
    inversion Hall as [|? ? Hx Hrest]; subst.
  - apply elements_last. by apply decodes_padded.
  - change (List.map enc (x :: y :: items))
      with (enc x :: List.map enc (y :: items)).
    rewrite join_cons by done.
    replace (before +:+ (enc x +:+ ("," +:+ before)
                           +:+ PyJson.join ("," +:+ before) (List.map enc (y :: items)))
               +:+ after)
      with ((before +:+ enc x +:+ "") +:+ ","
              +:+ (before +:+ PyJson.join ("," +:+ before) (List.map enc (y :: items))
                     +:+ after))
      by (by rewrite !append_assoc).
    apply elements_more; [by apply decodes_padded | by apply IH].
Qed.

Lemma members_join (enc : JSON -> string) (before after : string)
    (m : string * JSON) (members : list (string * JSON)) :
  whitespace before = true -> whitespace after = true ->
  Forall (fun member => unescaped (fst member) = true) (m :: members) ->
  Forall (fun member => decodes (enc (snd member)) (snd member)) (m :: members) ->
  decodes_members
    (before
       +:+ PyJson.join ("," +:+ before)
             (List.map (fun member =>
                          PyJson.encode_basestring_ascii (fst member) +:+ ": "
                          +:+ enc (snd member))
                       (m :: members))
       +:+ after)
    (m :: members).
Proof.
  intros Hbefore Hafter. revert m.
  induction members as [|m' members IH]; intros [k x] Hkeys Hall;
    inversion Hkeys as [|? ? Hk Hkeys']; inversion Hall as [|? ? Hx Hrest]; subst;
    cbn [fst snd] in Hk, Hx.
  - apply members_last. cbn [List.map PyJson.join fst snd].
    rewrite (encode_unescaped k Hk).
    replace (before +:+ (quoted k +:+ ": " +:+ enc x) +:+ after)
      with (before +:+ quoted k +:+ "" +:+ ":" +:+ (" " +:+ enc x +:+ after))
      by (by rewrite !append_assoc).
    apply member_pair; [done | done | done |].
    by apply decodes_padded.
  - set (entry := fun member : string * JSON =>
                    PyJson.encode_basestring_ascii (fst member) +:+ ": "
                    +:+ enc (snd member)).
    change (List.map entry ((k, x) :: m' :: members))
      with (entry (k, x) :: List.map entry (m' :: members)).
    rewrite join_cons by done. unfold entry at 1. cbn [fst snd].
    rewrite (encode_unescaped k Hk).
    replace (before +:+ ((quoted k +:+ ": " +:+ enc x) +:+ ("," +:+ before)
                           +:+ PyJson.join ("," +:+ before)
                                 (List.map entry (m' :: members)))
               +:+ after)
      with ((before +:+ quoted k +:+ "" +:+ ":" +:+ (" " +:+ enc x +:+ "")) +:+ ","
              +:+ (before +:+ PyJson.join ("," +:+ before)
                                (List.map entry (m' :: members))
                     +:+ after))
      by (by rewrite !append_assoc).
    apply members_more; [| by apply IH].
    apply member_pair; [done | done | done |].
    by apply decodes_padded.
Qed.

Lemma bracket_assoc (a b c d e : string) :
  a +:+ b +:+ c +:+ d +:+ e = a +:+ (b +:+ c +:+ d) +:+ e.
Proof. by rewrite !append_assoc. Qed.

(** What the encoder writes for a value of the grammar's part is a text
    of the grammar, and the text stands for that value. *)
Lemma decodes_iterencode (o : JSON) :
  simple_value o -> forall level, decodes (PyJson.iterencode 2 level o) o.
Proof.
  induction o as [| b | n | repr | s | items IH | members IH]
    using JSON_nested_ind; intros Hsimple level; inversion Hsimple; subst.
  - apply decodes_null.
  - destruct b; [apply decodes_true | apply decodes_false].
  - by apply decodes_int.
  - cbn [PyJson.iterencode]. rewrite encode_unescaped by done.
    by apply decodes_string.
  - destruct items as [|x items].
    + apply (decodes_empty_array ""). reflexivity.
    + cbn [PyJson.iterencode]. rewrite bracket_assoc. apply decodes_array.
      apply elements_join; try apply whitespace_newline_indent.
      apply Forall_forall. intros o Ho.
      rewrite Forall_forall in IH. apply IH; [done |].
      match goal with H : Forall simple_value _ |- _ =>
        rewrite Forall_forall in H; by apply H end.
  - destruct members as [|m members].
    + apply (decodes_empty_object ""). reflexivity.
    + cbn [PyJson.iterencode]. rewrite bracket_assoc.
      apply decodes_object; [| done].
      apply members_join; try apply whitespace_newline_indent; [done |].
      apply Forall_forall. intros member Hmember.
      rewrite Forall_forall in IH. apply IH; [done |].
      match goal with H : Forall (fun member => simple_value _) _ |- _ =>
        rewrite Forall_forall in H; by apply H end.
Qed.

(** ** Claims about the executor and the lookup tools *)

Lemma make_api_request_result url params w :
  (_make_api_request url params w).1
    = Returned (render (network w {| req_url := url; req_params := params |})).
Proof. by rewrite make_api_request_run. Qed.

Lemma search_studies_result params w :
  exists url m,
    (search_studies params w).1
      = Returned (render (network w {| req_url := url; req_params := Some m |})).
Proof.
  destruct (search_studies_run params w) as (d & _ & ->).
  eexists _, _. apply make_api_request_result.
Qed.

(** C6: a response whose status is not 200 is reported with its status
    code in decimal and its body as received, by the executor and so by
    each tool. *)
Theorem http_error_text (w : World) (response : Response) :
  status_code response <> 200 ->
  let message :=
    "Error: Request failed with status code "
      +:+ PyStr.of_int (status_code response)
      +:+ ". Response: " +:+ text response in
  (forall url params,
      network w {| req_url := url; req_params := params |} = Returned response ->
      (_make_api_request url params w).1 = Returned message)
  /\ ((forall request, network w request = Returned response) ->
      forall arg,
        (get_study arg w).1 = Returned message
        /\ (get_study_info arg w).1 = Returned message
        /\ (search_studies arg w).1 = Returned message).
Proof.
  intros Hstatus message.
  assert (render (Returned response) = message) as Hrender.
  { unfold render. by destruct (Z.eqb_spec (status_code response) 200). }
  split.
  - intros url params Hnet. by rewrite make_api_request_result, Hnet, Hrender.
  - intros Hnet arg. split; [| split].
    + unfold get_study. by rewrite make_api_request_result, Hnet, Hrender.
    + unfold get_study_info. by rewrite make_api_request_result, Hnet, Hrender.
    + destruct (search_studies_result arg w) as (url & m & ->).
      by rewrite Hnet, Hrender.
Qed.

Lemma http_error_text_witness :
  (_make_api_request (base +:+ "/studies/S-BSST1") None (answering not_found)).1
    = Returned "Error: Request failed with status code 404. Response: not found"
  /\ (get_study "S-BSST1" (answering not_found)).1
    = Returned "Error: Request failed with status code 404. Response: not found"
  /\ (get_study_info "S-BSST1" (answering not_found)).1
    = Returned "Error: Request failed with status code 404. Response: not found"
  /\ (search_studies "query=cancer" (answering not_found)).1
    = Returned "Error: Request failed with status code 404. Response: not found".
Proof.
  assert (status_code not_found <> 200) as Hstatus by (simpl; lia).
  destruct (http_error_text (answering not_found) not_found Hstatus)
    as [Hexec Htools].
  split; [apply Hexec; reflexivity |].
  split; [apply (Htools (fun _ => eq_refl)) |].
  split; [apply (Htools (fun _ => eq_refl) "S-BSST1") |].
  apply (Htools (fun _ => eq_refl) "query=cancer").
Defined.



(** C8: the executor and the three tools return a string in every world,
    whatever the arguments; an exception of the transport, and one of
    parsing the body of a 200 response, come back as the text
    [Error: An exception occurred during request: ] followed by the
    exception's description. *)
Theorem tools_never_raise (w : World) :
  (forall url params, exists s, (_make_api_request url params w).1 = Returned s)
  /\ (forall accession, exists s, (get_study accession w).1 = Returned s)
  /\ (forall accession, exists s, (get_study_info accession w).1 = Returned s)
  /\ (forall params, exists s, (search_studies params w).1 = Returned s)
  /\ (forall url params e,
        network w {| req_url := url; req_params := params |} = Raised e ->
        (_make_api_request url params w).1
          = Returned ("Error: An exception occurred during request: " +:+ e))
  /\ (forall url params response e,
        network w {| req_url := url; req_params := params |} = Returned response ->
        status_code response = 200 ->
        json response = Raised e ->
        (_make_api_request url params w).1
          = Returned ("Error: An exception occurred during request: " +:+ e)).
Proof.
  repeat split.
  - intros url params. eexists. apply make_api_request_result.
  - intros accession. eexists. apply make_api_request_result.
  - intros accession. eexists. apply make_api_request_result.
  - intros params. destruct (search_studies_result params w) as (url & m & ->).
    by eexists.
  - intros url params e Hnet. by rewrite make_api_request_result, Hnet.
  - intros url params response e Hnet Hstatus Hjson.
    rewrite make_api_request_result, Hnet. unfold render.
    by rewrite Hstatus, Hjson.
Qed.

(** C9: [get_study] and [get_study_info] are the executor run on
    [{base}/studies/{a}] and [{base}/studies/{a}/info], the accession
    taken as it is, with no parameters; each adds exactly one request to
    those sent. *)
Theorem study_lookup_requests (accession : string) (w : World) :
  get_study accession w
    = _make_api_request (base +:+ "/studies/" +:+ accession) None w
  /\ sent (get_study accession w).2
    = sent w ++ [{| req_url := base +:+ "/studies/" +:+ accession;
                    req_params := None |}]
  /\ get_study_info accession w
    = _make_api_request (base +:+ "/studies/" +:+ accession +:+ "/info") None w
  /\ sent (get_study_info accession w).2
    = sent w ++ [{| req_url := base +:+ "/studies/" +:+ accession +:+ "/info";
                    req_params := None |}].
Proof.
  unfold get_study, get_study_info.
  rewrite !make_api_request_run. by repeat split.
Qed.

(** * Further properties of the tools *)

(** ** More facts about the string operations *)

Lemma contains_app (c : ascii) (a b : string) :
  PyStr.contains c (a +:+ b) = PyStr.contains c a || PyStr.contains c b.
Proof.
  induction a as [|x a IH]; [reflexivity |].
  rewrite append_cons. simpl. by destruct (Ascii.eqb x c).
Qed.

(** Splitting on one character brings no other character into a piece. *)
Lemma split_keeps_free (c e : ascii) (s : string) :
  PyStr.contains e s = false ->
  Forall (fun piece => PyStr.contains e piece = false) (PyStr.split c s).
Proof.
  induction s as [|x s IH]; simpl.
  - intros _. by constructor.
  - destruct (Ascii.eqb x e) eqn:Hxe; [done |]. intros Hs.
    specialize (IH Hs). destruct (Ascii.eqb x c).
    + by constructor.
    + destruct (PyStr.split c s) as [|piece pieces].
      * constructor; [simpl; by rewrite Hxe | done].
      * inversion IH; subst. constructor; [simpl; by rewrite Hxe | done].
Qed.

Lemma parse_pairs_all_skipped (l : list string) (d : gmap string string) :
  Forall (fun p => PyStr.contains "=" p = false) l -> parse_pairs l d = Returned d.
Proof.
  induction 1 as [|p l Hp _ IH]; [done |].
  by rewrite (parse_pairs_skip _ _ _ Hp).
Qed.

Lemma parse_params_without_equals (params : string) :
  PyStr.contains "=" params = false -> parse_params params = Returned ∅.
Proof.
  intros Hfree. unfold parse_params. destruct (PyStr.truthy params); [| done].
  apply parse_pairs_all_skipped. by apply split_keeps_free.
Qed.

(** ** The search request, key by key *)

(** X1: a raw string with no [=] anywhere, such as a bare search word,
    names no parameter at all: the request is the one of the empty
    string, the global endpoint with the three defaults. *)
Theorem search_without_equals_sign (params : string) (w : World) :
  PyStr.contains "=" params = false ->
  sent (search_studies params w).2
    = sent w ++ [{| req_url := base +:+ "/search";
                    req_params := Some {[ "page" := "1"; "pageSize" := "20";
                                          "sortOrder" := "descending" ]} |}].
Proof.
  intros Hfree.
  destruct (search_studies_sent params w) as (d & Hd & ->).
  rewrite (parse_params_without_equals _ Hfree) in Hd.
  injection Hd as <-. reflexivity.
Qed.

Lemma search_without_equals_sign_witness :
  sent (search_studies "cancer&human" offline).2
    = sent offline ++ [{| req_url := base +:+ "/search";
                          req_params := Some {[ "page" := "1"; "pageSize" := "20";
                                                "sortOrder" := "descending" ]} |}].
Proof.
  apply (search_without_equals_sign "cancer&human" offline). reflexivity.
Defined.

(** X2: apart from the three pagination keys, the request carries [k]
    with value [v] exactly when [k=v] is the last pair for [k] in the raw
    string, [k] is not [collection] and [k] does not start with [facet.]:
    every other parameter passes through as written, and none is made
    up. *)
Theorem search_request_entries (params : string) (w : World) :
  exists url m,
    sent (search_studies params w).2
      = sent w ++ [{| req_url := url; req_params := Some m |}]
    /\ forall k v,
         k ∉ ["page"; "pageSize"; "sortOrder"] ->
         (m !! k = Some v <->
          (exists l1 l2,
              PyStr.split "&" params = l1 ++ (k +:+ "=" +:+ v) :: l2
              /\ PyStr.contains "=" k = false
              /\ Forall (fun q => PyStr.startswith q (k +:+ "=") = false) l2)
          /\ k <> "collection"
          /\ PyStr.startswith k "facet." = false).
Proof.
  destruct (search_studies_sent params w) as (d & Hd & Hsent).
  destruct (parse_params_spec params) as (d' & Hd' & Hspec).
  rewrite Hd in Hd'. injection Hd' as <-.
  exists (select_base_url (d !! "collection")), (outgoing d).
  split; [exact Hsent |].
  intros k v Hk. rewrite <- Hspec, outgoing_lookup. clear Hspec.
  repeat case_decide; subst.
  - destruct Hk. by repeat constructor.
  - destruct Hk. by repeat constructor.
  - destruct Hk. by repeat constructor.
  - destruct (PyStr.startswith "collection" "facet."); intuition congruence.
  - destruct (PyStr.startswith k "facet."); intuition congruence.
Qed.

(** X3: no key of the request contains [&] or [=], and no value contains
    [&]: the parser has no escape for its separators, so a value is cut at
    the first [&]. *)
Theorem request_entries_separator_free (params : string) (w : World) :
  exists url m,
    sent (search_studies params w).2
      = sent w ++ [{| req_url := url; req_params := Some m |}]
    /\ forall k v,
         m !! k = Some v ->
         PyStr.contains "&" k = false
         /\ PyStr.contains "=" k = false
         /\ PyStr.contains "&" v = false.
Proof.
  destruct (search_studies_sent params w) as (d & Hd & Hsent).
  destruct (parse_params_spec params) as (d' & Hd' & Hspec).
  rewrite Hd in Hd'. injection Hd' as <-.
  exists (select_base_url (d !! "collection")), (outgoing d).
  split; [exact Hsent |].
  assert (forall k v, d !! k = Some v ->
            PyStr.contains "&" k = false /\ PyStr.contains "=" k = false
            /\ PyStr.contains "&" v = false) as Hparsed.
  { intros k v (l1 & l2 & Hsplit & Hk & _)%Hspec.
    pose proof (split_pieces_free "&" params) as Hfree.
    rewrite Hsplit in Hfree. apply Forall_app in Hfree as [_ Hfree].
    inversion Hfree as [|? ? Hpiece _]; subst.
    rewrite !contains_app in Hpiece.
    apply orb_false_elim in Hpiece as [Hk' Hv].
    apply orb_false_elim in Hv as [_ Hv].
    done. }
  intros k v. rewrite outgoing_lookup.
  repeat case_decide; subst.
  - destruct (d !! "sortOrder") as [v'|] eqn:Hv; simpl; intros [= <-].
    + destruct (Hparsed _ _ Hv) as (_ & _ & ?). done.
    + done.
  - destruct (d !! "pageSize") as [v'|] eqn:Hv; simpl; intros [= <-].
    + destruct (Hparsed _ _ Hv) as (_ & _ & ?). done.
    + done.
  - destruct (d !! "page") as [v'|] eqn:Hv; simpl; intros [= <-].
    + destruct (Hparsed _ _ Hv) as (_ & _ & ?). done.
    + done.
  - by destruct (PyStr.startswith "collection" "facet.").
  - destruct (PyStr.startswith k "facet."); [done |]. apply Hparsed.
Qed.

(** ** Telling failure from success *)

Lemma of_int_not_error (n : Z) : PyStr.startswith (PyStr.of_int n) "Error:" = false.
Proof.
  unfold PyStr.of_int. destruct (Z.to_int n) as [d | d]; [| reflexivity].
  by destruct d.
Qed.

(** X5: the text the executor returns begins with [Error: ] on each of its
    three failure paths, and does not begin with [Error:] when a 200
    response parsed to a JSON value (other than a bare float, whose text
    is outside the model): the prefix tells failure from success. *)
Theorem error_prefix_tells_failure (w : World) (url : string)
    (params : option (gmap string string)) :
  (forall e,
      network w {| req_url := url; req_params := params |} = Raised e ->
      exists s, (_make_api_request url params w).1 = Returned s
                /\ PyStr.startswith s "Error: " = true)
  /\ (forall response,
      network w {| req_url := url; req_params := params |} = Returned response ->
      status_code response <> 200 ->
      exists s, (_make_api_request url params w).1 = Returned s
                /\ PyStr.startswith s "Error: " = true)
  /\ (forall response e,
      network w {| req_url := url; req_params := params |} = Returned response ->
      status_code response = 200 ->
      json response = Raised e ->
      exists s, (_make_api_request url params w).1 = Returned s
                /\ PyStr.startswith s "Error: " = true)
  /\ (forall response data,
      network w {| req_url := url; req_params := params |} = Returned response ->
      status_code response = 200 ->
      json response = Returned data ->
      (forall repr, data <> JFloat repr) ->
      exists s, (_make_api_request url params w).1 = Returned s
                /\ PyStr.startswith s "Error:" = false).
Proof.
  rewrite make_api_request_result. repeat split.
  - intros e ->. eexists. split; reflexivity.
  - intros response -> Hstatus. eexists. split; [reflexivity |].
    unfold render. by destruct (Z.eqb_spec (status_code response) 200).
  - intros response e -> Hstatus Hjson. eexists. split; [reflexivity |].
    unfold render. by rewrite Hstatus, Hjson.
  - intros response data -> Hstatus Hjson Hfloat. eexists. split; [reflexivity |].
    unfold render. rewrite Hstatus, Hjson. simpl.
    unfold PyJson.dumps.
    destruct data as [| [|] | n | repr | s | [|x items] | [|m members]];
      try reflexivity.
    + apply of_int_not_error.
    + by destruct (Hfloat repr).
Qed.

(** ** A [facet.] pair changes nothing *)

Lemma split_nonempty (c : ascii) (s : string) :
  exists piece pieces, PyStr.split c s = piece :: pieces.
Proof.
  destruct s as [|x s]; simpl; [by eexists _, _ |].
  destruct (Ascii.eqb x c); [by eexists _, _ |].
  destruct (PyStr.split c s); by eexists _, _.
Qed.

Lemma split_sep_app (c : ascii) (a b : string) :
  PyStr.split c (a +:+ String c b) = PyStr.split c a ++ PyStr.split c b.
Proof.
  induction a as [|x a IH].
  - change ("" +:+ String c b) with (String c b). simpl.
    by rewrite Ascii.eqb_refl.
  - rewrite append_cons. simpl. rewrite IH.
    destruct (Ascii.eqb x c); [done |].
    by destruct (split_nonempty c a) as (piece & pieces & ->).
Qed.

Lemma split_free (c : ascii) (s : string) :
  PyStr.contains c s = false -> PyStr.split c s = [s].
Proof.
  induction s as [|x s IH]; simpl; [done |].
  destruct (Ascii.eqb x c); [done |]. intros Hs. by rewrite (IH Hs).
Qed.

Lemma parse_params_split (params : string) :
  parse_params params = parse_pairs (PyStr.split "&" params) ∅.
Proof. by destruct params. Qed.

Lemma startswith_key (p k v : string) :
  PyStr.contains "=" p = false ->
  PyStr.startswith (k +:+ "=" +:+ v) p = true -> PyStr.startswith k p = true.
Proof.
  revert k. induction p as [|y p IH]; intros k; [done |].
  simpl. destruct (Ascii.eqb y "=") eqn:Hy; [done |]. intros Hp.
  destruct k as [|x k].
  - change ("" +:+ "=" +:+ v) with (String "=" v). cbn [PyStr.startswith].
    rewrite Ascii.eqb_sym, Hy. done.
  - rewrite append_cons. cbn [PyStr.startswith].
    destruct (Ascii.eqb x y); [| done]. by apply IH.
Qed.

Lemma parse_pairs_app (l1 l2 : list string) (d : gmap string string) :
  parse_pairs (l1 ++ l2) d =
    match parse_pairs l1 d with
    | Returned d' => parse_pairs l2 d'
    | Raised e => Raised e
    end.
Proof.
  revert d. induction l1 as [|p l1 IH]; intros d; [done |].
  change ((p :: l1) ++ l2) with (p :: (l1 ++ l2)).
  destruct (entry_or_skip p) as [(k & v & Hp) | Hp].
  - by rewrite !(parse_pairs_entry _ _ _ _ _ Hp).
  - by rewrite !(parse_pairs_skip _ _ _ Hp).
Qed.

(** Two runs of the loop that start from maps equal outside [k0] end in
    maps equal outside [k0]. *)
Lemma parse_pairs_agree (k0 : string) (l : list string) :
  forall d1 d2 : gmap string string,
    (forall k, k <> k0 -> d1 !! k = d2 !! k) ->
    exists r1 r2,
      parse_pairs l d1 = Returned r1 /\ parse_pairs l d2 = Returned r2
      /\ forall k, k <> k0 -> r1 !! k = r2 !! k.
Proof.
  induction l as [|p l IH]; intros d1 d2 Hagree.
  - by exists d1, d2.
  - destruct (entry_or_skip p) as [(k & v & Hp) | Hp].
    + rewrite !(parse_pairs_entry _ _ _ _ _ Hp). apply IH.
      intros k' Hk'. destruct (decide (k = k')) as [<- | Hne].
      * by rewrite !lookup_insert_eq.
      * rewrite !lookup_insert_ne by done. by apply Hagree.
    + rewrite !(parse_pairs_skip _ _ _ Hp). by apply IH.
Qed.

Lemma facet_pair_in_pairs (l1 l2 : list string) (f : string) :
  PyStr.startswith f "facet." = true ->
  exists r1 r2 k0,
    PyStr.startswith k0 "facet." = true
    /\ parse_pairs (l1 ++ f :: l2) ∅ = Returned r1
    /\ parse_pairs (l1 ++ l2) ∅ = Returned r2
    /\ forall k, k <> k0 -> r1 !! k = r2 !! k.
Proof.
  intros Hf. rewrite !parse_pairs_app.
  destruct (parse_pairs_spec l1 ∅) as (d & -> & _).
  destruct (entry_or_skip f) as [(k0 & v0 & Hentry) | Hskip].
  - rewrite (parse_pairs_entry _ _ _ _ _ Hentry).
    destruct (parse_pairs_agree k0 l2 (<[k0 := v0]> d) d) as (r1 & r2 & H1 & H2 & Hr).
    { intros k Hk. by rewrite lookup_insert_ne. }
    exists r1, r2, k0. split; [| done].
    destruct Hentry as [-> _]. by apply (startswith_key "facet." k0 v0).
  - rewrite (parse_pairs_skip _ _ _ Hskip).
    destruct (parse_pairs_spec l2 d) as (r & -> & _).
    by exists r, r, "facet.".
Qed.

Lemma outgoing_agree (k0 : string) (d1 d2 : gmap string string) :
  PyStr.startswith k0 "facet." = true ->
  (forall k, k <> k0 -> d1 !! k = d2 !! k) ->
  d1 !! "collection" = d2 !! "collection" /\ outgoing d1 = outgoing d2.
Proof.
  intros Hk0 Hagree.
  assert (forall key, PyStr.startswith key "facet." = false ->
            d1 !! key = d2 !! key) as Hplain.
  { intros key Hkey. apply Hagree. intros ->. congruence. }
  split; [by apply Hplain |].
  apply map_eq. intros k. rewrite !outgoing_lookup.
  rewrite !(Hplain "sortOrder"), !(Hplain "pageSize"), !(Hplain "page") by done.
  repeat case_decide; try done.
  destruct (PyStr.startswith k "facet.") eqn:Hk; [done |]. by apply Hplain.
Qed.

Lemma search_studies_agree (k0 p1 p2 : string) (r1 r2 : gmap string string)
    (w : World) :
  PyStr.startswith k0 "facet." = true ->
  parse_params p1 = Returned r1 ->
  parse_params p2 = Returned r2 ->
  (forall k, k <> k0 -> r1 !! k = r2 !! k) ->
  search_studies p1 w = search_studies p2 w.
Proof.
  intros Hk0 H1 H2 Hagree.
  destruct (search_studies_run p1 w) as (d1 & Hd1 & ->).
  destruct (search_studies_run p2 w) as (d2 & Hd2 & ->).
  rewrite H1 in Hd1. rewrite H2 in Hd2.
  injection Hd1 as <-. injection Hd2 as <-.
  by destruct (outgoing_agree k0 r1 r2 Hk0 Hagree) as [-> ->].
Qed.

(** X6: a pair that starts with [facet.] can be put anywhere in the raw
    string, or taken out, without any effect: the request, the result and
    the world after the call are the same. *)
Theorem facet_pair_changes_nothing (f : string) (w : World) :
  PyStr.startswith f "facet." = true ->
  PyStr.contains "&" f = false ->
  (forall a b,
      search_studies (a +:+ "&" +:+ f +:+ "&" +:+ b) w
        = search_studies (a +:+ "&" +:+ b) w)
  /\ (forall b, search_studies (f +:+ "&" +:+ b) w = search_studies b w)
  /\ (forall a, search_studies (a +:+ "&" +:+ f) w = search_studies a w)
  /\ search_studies f w = search_studies "" w.
Proof.
  intros Hf Hamp.
  pose proof (split_free "&" f Hamp) as Hsplit.
  split; [| split; [| split]].
  - intros a b.
    destruct (facet_pair_in_pairs (PyStr.split "&" a) (PyStr.split "&" b) f Hf)
      as (r1 & r2 & k0 & Hk0 & H1 & H2 & Hagree).
    apply (search_studies_agree k0 _ _ r1 r2); [done | | | done].
    + rewrite parse_params_split.
      change (a +:+ "&" +:+ f +:+ "&" +:+ b)
        with (a +:+ String "&" (f +:+ String "&" b)).
      by rewrite !split_sep_app, Hsplit.
    + rewrite parse_params_split.
      change (a +:+ "&" +:+ b) with (a +:+ String "&" b).
      by rewrite split_sep_app.
  - intros b.
    destruct (facet_pair_in_pairs [] (PyStr.split "&" b) f Hf)
      as (r1 & r2 & k0 & Hk0 & H1 & H2 & Hagree).
    apply (search_studies_agree k0 _ _ r1 r2); [done | | | done].
    + rewrite parse_params_split.
      change (f +:+ "&" +:+ b) with (f +:+ String "&" b).
      by rewrite split_sep_app, Hsplit.
    + by rewrite parse_params_split.
  - intros a.
    destruct (facet_pair_in_pairs (PyStr.split "&" a) [] f Hf)
      as (r1 & r2 & k0 & Hk0 & H1 & H2 & Hagree).
    apply (search_studies_agree k0 _ _ r1 r2); [done | | | done].
    + rewrite parse_params_split.
      change (a +:+ "&" +:+ f) with (a +:+ String "&" f).
      by rewrite split_sep_app, Hsplit.
    + rewrite parse_params_split. by rewrite app_nil_r in H2.
  - destruct (facet_pair_in_pairs [] [] f Hf)
      as (r1 & r2 & k0 & Hk0 & H1 & H2 & Hagree).
    apply (search_studies_agree k0 _ _ r1 r2); [done | | | done].
    + by rewrite parse_params_split, Hsplit.
    + exact H2.
Qed.

Lemma facet_pair_changes_nothing_witness :
  search_studies "query=x&facet.organism=human&page=2" offline
    = search_studies "query=x&page=2" offline
  /\ search_studies "facet.organism=human&query=x" offline
    = search_studies "query=x" offline
  /\ search_studies "query=x&facet.organism=human" offline
    = search_studies "query=x" offline
  /\ search_studies "facet.organism=human" offline = search_studies "" offline.
Proof.
  destruct (facet_pair_changes_nothing "facet.organism=human" offline
              eq_refl eq_refl) as (Hmid & Hfirst & Hlast & Halone).
  split; [exact (Hmid "query=x" "page=2") |].
  split; [exact (Hfirst "query=x") |].
  split; [exact (Hlast "query=x") | exact Halone].
Defined.

(** ** The success text is plain ASCII *)

Lemma plain_text_app (a b : string) :
  plain_text (a +:+ b) = plain_text a && plain_text b.
Proof.
  induction a as [|x a IH]; [reflexivity |].
  rewrite append_cons. simpl. by rewrite IH, andb_assoc.
Qed.

Lemma plain_hex_digit (n : N) : plain_char (PyJson.hex_digit (n mod 16)) = true.
Proof.
  pose proof (N.mod_upper_bound n 16) as Hlt.
  assert (n mod 16 < 16)%N as Hd by (apply Hlt; lia). clear Hlt.
  destruct (n mod 16)%N as [|p]; [reflexivity |].
  do 4 (destruct p as [p | p |]; try reflexivity); lia.
Qed.

Lemma plain_u_escape (n : N) : plain_text (PyJson.u_escape n) = true.
Proof.
  unfold PyJson.u_escape. cbn [plain_text].
  by rewrite !plain_hex_digit.
Qed.

Lemma plain_escape_code_point (n : N) :
  plain_text (PyJson.escape_code_point n) = true.
Proof.
  unfold PyJson.escape_code_point.
  repeat (match goal with |- context [if ?b then _ else _] => destruct b eqn:? end;
          [try reflexivity |]).
  - unfold PyJson.chr. cbn [plain_text]. unfold plain_char.
    rewrite N_ascii_embedding.
    + rewrite andb_true_r. apply orb_true_iff. by right.
    + apply andb_true_iff in Heqb6 as [_ Hle]. apply N.leb_le in Hle. lia.
  - apply plain_u_escape.
  - by rewrite plain_text_app, !plain_u_escape.
Qed.

Lemma plain_encode_basestring_ascii (s : string) :
  plain_text (PyJson.encode_basestring_ascii s) = true.
Proof.
  unfold PyJson.encode_basestring_ascii. cbn [plain_text].
  rewrite andb_true_iff. split; [reflexivity |].
  induction (PyJson.code_points s) as [|n l IH]; [reflexivity |].
  simpl. by rewrite plain_text_app, plain_escape_code_point, IH.
Qed.

Lemma plain_of_int (n : Z) : plain_text (PyStr.of_int n) = true.
Proof.
  assert (forall d, plain_text (NilEmpty.string_of_uint d) = true) as Huint.
  { induction d; simpl; by rewrite ?IHd. }
  assert (forall d, plain_text (NilZero.string_of_uint d) = true) as Hzero.
  { intros d. destruct d; try reflexivity; apply Huint. }
  unfold PyStr.of_int. destruct (Z.to_int n) as [d | d]; simpl.
  - apply Hzero.
  - apply Hzero.
Qed.

Lemma plain_newline_indent (indent level : nat) :
  plain_text (PyJson.newline_indent indent level) = true.
Proof.
  unfold PyJson.newline_indent. cbn [plain_text].
  rewrite andb_true_iff. split; [reflexivity |].
  induction (indent * level)%nat as [|k IH]; [reflexivity |].
  simpl. exact IH.
Qed.

Lemma plain_join (separator : string) (chunks : list string) :
  plain_text separator = true ->
  Forall (fun chunk => plain_text chunk = true) chunks ->
  plain_text (PyJson.join separator chunks) = true.
Proof.
  intros Hsep. induction 1 as [|chunk rest Hchunk Hrest IH]; [reflexivity |].
  destruct rest as [|next rest]; [exact Hchunk |].
  change (PyJson.join separator (chunk :: next :: rest))
    with (chunk +:+ separator +:+ PyJson.join separator (next :: rest)).
  by rewrite !plain_text_app, Hchunk, Hsep, IH.
Qed.

Lemma plain_iterencode (indent : nat) (o : JSON) :
  forall level,
    floats_plain o = true -> plain_text (PyJson.iterencode indent level o) = true.
Proof.
  induction o as [| b | n | repr | s | items IH | members IH]
    using JSON_nested_ind; intros level Hfloats.
  - reflexivity.
  - by destruct b.
  - apply plain_of_int.
  - exact Hfloats.
  - apply plain_encode_basestring_ascii.
  - destruct items as [|x items]; [reflexivity |].
    cbn [PyJson.iterencode].
    rewrite !plain_text_app, !plain_newline_indent.
    rewrite plain_join; [reflexivity | |].
    + by rewrite plain_text_app, plain_newline_indent.
    + change (forallb floats_plain (x :: items) = true) in Hfloats.
      pose proof (proj1 (forallb_forall floats_plain (x :: items)) Hfloats) as Hall.
      apply Forall_forall. intros chunk Hin%list_elem_of_In.
      apply in_map_iff in Hin as (y & <- & Hy).
      rewrite Forall_forall in IH.
      apply IH; [by apply list_elem_of_In | by apply Hall].
  - destruct members as [|m members]; [reflexivity |].
    cbn [PyJson.iterencode].
    rewrite !plain_text_app, !plain_newline_indent.
    rewrite plain_join; [reflexivity | |].
    + by rewrite plain_text_app, plain_newline_indent.
    + change (forallb (fun member => floats_plain (snd member)) (m :: members)
              = true) in Hfloats.
      pose proof (proj1 (forallb_forall _ (m :: members)) Hfloats) as Hall.
      apply Forall_forall. intros chunk Hin%list_elem_of_In.
      apply in_map_iff in Hin as (y & <- & Hy).
      rewrite Forall_forall in IH.
      rewrite !plain_text_app, plain_encode_basestring_ascii.
      rewrite (IH y); [reflexivity | by apply list_elem_of_In | by apply Hall].
Qed.

(** X7: the text returned for a 200 response that parsed to JSON is made
    of printable ASCII characters and newlines only: every other
    character of a string or a key, accented letters and control
    characters included, comes back as an escape. *)
Theorem success_text_is_plain_ascii (w : World) (url : string)
    (params : option (gmap string string)) (response : Response) (data : JSON) :
  network w {| req_url := url; req_params := params |} = Returned response ->
  status_code response = 200 ->
  json response = Returned data ->
  floats_plain data = true ->
  exists s, (_make_api_request url params w).1 = Returned s
            /\ plain_text s = true.
Proof.
  intros Hnet Hstatus Hjson Hfloats.
  exists (PyJson.dumps data 2). split.
  - rewrite make_api_request_result, Hnet.
    unfold render. by rewrite Hstatus, Hjson.
  - by apply plain_iterencode.
Qed.

Lemma success_text_is_plain_ascii_witness :
  exists s,
    (_make_api_request (base +:+ "/studies/S-BSST1") None (answering ok_title)).1
      = Returned s
    /\ plain_text s = true.
Proof.
  apply (success_text_is_plain_ascii (answering ok_title) _ None ok_title
           (JObject [("title", JString ("café" +:+ PyJson.chr PyJson.newline
                                          +:+ "au lait"))]));
    reflexivity.
Defined.
